(** * AzCore/Utils/ValidationUtils.h : the [AZ::IsValid] overload family

    A shallow embedding of the inline predicates of
    [Code/Framework/AzCore/AzCore/Utils/ValidationUtils.h] together with the
    properties stated about them.

    Raw pointers are addresses into a typed object store (or [nullptr]);
    member calls through a pointer are evaluated in a small monad that
    records every accessor invocation and faults when the receiver is not a
    live object.  The C++ operator [&&] is modelled with its short-circuit
    evaluation order. *)

From stdpp Require Import base option list gmap.

Module AZ.

(** ** Pointers *)

Abbreviation addr := N (only parsing).

(** [const T*] : either the null pointer or the address of an object. *)
Inductive Ptr (T : Type) : Type :=
  | nullptr
  | ref (a : addr).
Arguments nullptr {T}.
Arguments ref {T} a.

Definition is_nullptr {T} (p : Ptr T) : bool :=
  match p with
  | nullptr => true
  | ref _ => false
  end.

(** [p != nullptr] *)
Definition ne_nullptr {T} (p : Ptr T) : bool := negb (is_nullptr p).

(** contextual conversion of a pointer to [bool], as in [p && ...] *)
Definition to_bool {T} (p : Ptr T) : bool := ne_nullptr p.

(** the address a pointer holds, with its pointee type erased *)
Definition address {T} (p : Ptr T) : option addr :=
  match p with
  | nullptr => None
  | ref a => Some a
  end.

(** ** The engine types the header observes *)

(** Modelled from the spec: [AZ::Entity::State] is declared in
    AzCore/Component/Entity.h, which is not among the sources; the entity
    lifecycle is Constructed, Init, Activating, Active, Deactivating,
    Destroyed. *)
Inductive State : Type :=
  | Constructed
  | Init
  | Activating
  | Active
  | Deactivating
  | Destroyed.

Definition State_eqb (s1 s2 : State) : bool :=
  match s1, s2 with
  | Constructed, Constructed
  | Init, Init
  | Activating, Activating
  | Active, Active
  | Deactivating, Deactivating
  | Destroyed, Destroyed => true
  | _, _ => false
  end.

(** Modelled from the spec: [AZ::Entity] (AzCore/Component/Entity.h), an
    entity type with a state accessor. *)
Record Entity : Type := { m_state : State }.

(** Modelled from the spec: [AZ::Component] (AzCore/Component/Component.h),
    a component type with an owning-entity accessor. *)
Record Component : Type := { m_entity : Ptr Entity }.

(** Modelled from the spec: [AZ::Job], a job with a cancellation query. *)
Record Job : Type := { m_cancelled : bool }.

(** Modelled from the spec: [AZ::SerializeContext], a serialization context
    with a readiness query. *)
Record SerializeContext : Type := { m_ready : bool }.

(** Modelled from the spec: [AZ::Data::AssetId], an identifier with its own
    validity query. *)
Record AssetId : Type := { m_idValid : bool }.

Definition AssetId_IsValid (id : AssetId) : bool := m_idValid id.

(** Modelled from the spec: [AZ::Data::Asset<T>] (AzCore/Asset/AssetCommon.h),
    an asset handle with a readiness query and an identifier accessor. *)
Record Asset (T : Type) : Type := { m_assetReady : bool; m_assetId : AssetId }.
Arguments m_assetReady {T} _.
Arguments m_assetId {T} _.

Definition Asset_IsReady {T} (asset : Asset T) : bool := m_assetReady asset.
Definition Asset_GetId {T} (asset : Asset T) : AssetId := m_assetId asset.

(** Modelled from the spec: [AZ::Outcome<T, E>], a value carrying either a
    success payload or a failure payload, with a discriminant. *)
Inductive Outcome (T E : Type) : Type :=
  | Success (value : T)
  | Failure (error : E).
Arguments Success {T E} value.
Arguments Failure {T E} error.

Definition Outcome_IsSuccess {T E} (outcome : Outcome T E) : bool :=
  match outcome with
  | Success _ => true
  | Failure _ => false
  end.

(** Modelled from the spec: [AZ::EBus<T>] and [AZ::TickBus], message-bus
    handles with a connection query. *)
Record EBus (T : Type) : Type := { m_connected : bool }.
Arguments m_connected {T} _.

Definition EBus_IsConnected {T} (bus : EBus T) : bool := m_connected bus.

Record TickBus : Type := { m_tickConnected : bool }.

Definition TickBus_IsConnected (tickBus : TickBus) : bool :=
  m_tickConnected tickBus.

(** Modelled from the spec: the owning handle categories, which compare
    equal to the null literal when empty.  [AZStd::shared_ptr] keeps its
    reference count next to the stored pointer; [AZStd::unique_ptr] and
    [AZStd::intrusive_ptr] hold the pointer alone (an intrusive count lives
    in the pointee). *)
Record shared_ptr (T : Type) : Type := { sp_px : Ptr T; sp_use_count : nat }.
Arguments sp_px {T} _.
Arguments sp_use_count {T} _.

Record unique_ptr (T : Type) : Type := { up_ptr : Ptr T }.
Arguments up_ptr {T} _.

Record intrusive_ptr (T : Type) : Type := { ip_px : Ptr T }.
Arguments ip_px {T} _.

(** [smartPtr != nullptr] on each owning handle compares the stored pointer. *)
Definition shared_ptr_ne_nullptr {T} (smartPtr : shared_ptr T) : bool :=
  ne_nullptr (sp_px smartPtr).
Definition unique_ptr_ne_nullptr {T} (uniquePtr : unique_ptr T) : bool :=
  ne_nullptr (up_ptr uniquePtr).
Definition intrusive_ptr_ne_nullptr {T} (ptr : intrusive_ptr T) : bool :=
  ne_nullptr (ip_px ptr).

(** Modelled from the spec: the render handles are pointer wrappers probed
    for null-ness only.  Their pointees are opaque here. *)
Inductive View : Type := mkView.
Inductive Scene : Type := mkScene.
Inductive RenderPipeline : Type := mkRenderPipeline.
Inductive ShaderResourceGroup : Type := mkShaderResourceGroup.
Inductive PipelineState : Type := mkPipelineState.

(** The handle aliases of the render layers: [AZ::RHI::Ptr], [AZ::RPI::Ptr]
    and [AZ::Data::Instance] are intrusive handles, the view, scene and
    render-pipeline handles are shared ones. *)
Module RHI.
Definition Ptr (T : Type) : Type := intrusive_ptr T.
Definition ShaderResourceGroupPtr : Type := Ptr ShaderResourceGroup.
Definition PipelineStatePtr : Type := Ptr PipelineState.
End RHI.

Module RPI.
Definition Ptr (T : Type) : Type := intrusive_ptr T.
Definition ViewPtr : Type := shared_ptr View.
Definition ScenePtr : Type := shared_ptr Scene.
Definition RenderPipelinePtr : Type := shared_ptr RenderPipeline.
End RPI.

Module Data.
Definition Instance (T : Type) : Type := intrusive_ptr T.
End Data.

(** ** The object store *)

Record Heap : Type := {
  entities : gmap addr Entity;
  components : gmap addr Component;
  jobs : gmap addr Job;
  contexts : gmap addr SerializeContext
}.

(** The objects of type [T] that are alive in a heap. *)
Class Stored (T : Type) : Type := store : Heap -> gmap addr T.

#[export] Instance Stored_Entity : Stored Entity := entities.
#[export] Instance Stored_Component : Stored Component := components.
#[export] Instance Stored_Job : Stored Job := jobs.
#[export] Instance Stored_SerializeContext : Stored SerializeContext := contexts.

(** The object a pointer designates; [None] for the null pointer and for an
    address that holds no live object of that type. *)
Definition deref {T} `{Stored T} (h : Heap) (p : Ptr T) : option T :=
  match p with
  | nullptr => None
  | ref a => store h !! a
  end.

(** ** Evaluation of member calls *)

Inductive Accessor : Type :=
  | AccGetState
  | AccGetEntity
  | AccIsCancelled
  | AccIsReady.

(** One invocation of an accessor; the receiver is [None] when the call goes
    through the null pointer. *)
Record Probe : Type := { accessor : Accessor; receiver : option addr }.

(** An expression evaluates, in a heap it only reads, to the accessor calls
    it made and to its value, or to no value when a call had no live
    receiver (undefined behaviour in the source language). *)
Definition Eval (A : Type) : Type := Heap -> list Probe * option A.

Definition ret {A} (a : A) : Eval A := fun _ => ([], Some a).

Definition bind {A B} (m : Eval A) (f : A -> Eval B) : Eval B :=
  fun h =>
    match m h with
    | (t, Some a) => let '(t', r) := f a h in (t ++ t', r)
    | (t, None) => (t, None)
    end.

Notation "'let!' x ':=' m 'in' k" := (bind m (fun x => k))
  (at level 10, x name, m at level 200, k at level 200).

(** [p->acc()] : the call is made whatever [p] is, and has a value only when
    [p] designates a live object. *)
Definition call {T A} `{Stored T} (acc : Accessor) (field : T -> A)
    (p : Ptr T) : Eval A :=
  fun h => ([{| accessor := acc; receiver := address p |}], field <$> deref h p).

(** [a && b] : [b] is evaluated only when [a] is true. *)
Definition and_then (a b : Eval bool) : Eval bool :=
  let! x := a in if x then b else ret false.

Infix "&&&" := and_then (at level 40, left associativity).

Definition probes {A} (m : Eval A) (h : Heap) : list Probe := fst (m h).
Definition verdict {A} (m : Eval A) (h : Heap) : option A := snd (m h).

Definition Entity_GetState : Ptr Entity -> Eval State :=
  call AccGetState m_state.
Definition Component_GetEntity : Ptr Component -> Eval (Ptr Entity) :=
  call AccGetEntity m_entity.
Definition Job_IsCancelled : Ptr Job -> Eval bool :=
  call AccIsCancelled m_cancelled.
Definition SerializeContext_IsReady : Ptr SerializeContext -> Eval bool :=
  call AccIsReady m_ready.

(** ** The overloads of [IsValid], in the order of the header *)

(** [template<typename T> bool IsValid(const T* object)] *)
Definition IsValid_ptr {T} (object : Ptr T) : bool :=
  ne_nullptr object.

(** [template<typename T> bool IsValid(const AZStd::shared_ptr<T>& smartPtr)] *)
Definition IsValid_shared_ptr {T} (smartPtr : shared_ptr T) : bool :=
  shared_ptr_ne_nullptr smartPtr.

(** [template<typename T> bool IsValid(const AZStd::unique_ptr<T>& uniquePtr)] *)
Definition IsValid_unique_ptr {T} (uniquePtr : unique_ptr T) : bool :=
  unique_ptr_ne_nullptr uniquePtr.

(** [template<> bool IsValid(const AZ::Entity* entity)] *)
Definition IsValid_Entity (entity : Ptr Entity) : Eval bool :=
  ret (to_bool entity)
  &&& (let! s := Entity_GetState entity in ret (State_eqb s Active)).

(** [template<> bool IsValid(const AZ::Component* component)] *)
Definition IsValid_Component (component : Ptr Component) : Eval bool :=
  ret (to_bool component)
  &&& (let! e := Component_GetEntity component in ret (to_bool e))
  &&& (let! e := Component_GetEntity component in
       let! s := Entity_GetState e in
       ret (State_eqb s Active)).

(** [template<typename T> bool IsValid(const AZ::Data::Asset<T>& asset)] *)
Definition IsValid_Asset {T} (asset : Asset T) : bool :=
  Asset_IsReady asset && AssetId_IsValid (Asset_GetId asset).

(** [template<typename T> bool IsValid(const AZ::RHI::Ptr<T>& ptr)] *)
Definition IsValid_RHI_Ptr {T} (ptr : RHI.Ptr T) : bool :=
  intrusive_ptr_ne_nullptr ptr.

(** [template<typename T> bool IsValid(const AZ::RPI::Ptr<T>& ptr)] *)
Definition IsValid_RPI_Ptr {T} (ptr : RPI.Ptr T) : bool :=
  intrusive_ptr_ne_nullptr ptr.

(** [bool IsValid(const AZ::RPI::ViewPtr& ptr)] *)
Definition IsValid_ViewPtr (ptr : RPI.ViewPtr) : bool :=
  shared_ptr_ne_nullptr ptr.

(** [bool IsValid(const AZ::RPI::ScenePtr& ptr)] *)
Definition IsValid_ScenePtr (ptr : RPI.ScenePtr) : bool :=
  shared_ptr_ne_nullptr ptr.

(** [bool IsValid(const AZ::RPI::RenderPipelinePtr& ptr)] *)
Definition IsValid_RenderPipelinePtr (ptr : RPI.RenderPipelinePtr) : bool :=
  shared_ptr_ne_nullptr ptr.

(** [bool IsValid(const AZ::RHI::ShaderResourceGroupPtr& ptr)] *)
Definition IsValid_ShaderResourceGroupPtr
    (ptr : RHI.ShaderResourceGroupPtr) : bool :=
  intrusive_ptr_ne_nullptr ptr.

(** [bool IsValid(const AZ::RHI::PipelineStatePtr& ptr)] *)
Definition IsValid_PipelineStatePtr (ptr : RHI.PipelineStatePtr) : bool :=
  intrusive_ptr_ne_nullptr ptr.

(** [template<typename T> bool IsValid(const AZ::Data::Instance<T>& instance)] *)
Definition IsValid_Instance {T} (instance : Data.Instance T) : bool :=
  intrusive_ptr_ne_nullptr instance.

(** [template<typename T, typename E> bool IsValid(const AZ::Outcome<T, E>& outcome)] *)
Definition IsValid_Outcome {T E} (outcome : Outcome T E) : bool :=
  Outcome_IsSuccess outcome.

(** [bool IsValid(const AZ::Job* job)] *)
Definition IsValid_Job (job : Ptr Job) : Eval bool :=
  ret (to_bool job)
  &&& (let! cancelled := Job_IsCancelled job in ret (negb cancelled)).

(** [template<typename T> bool IsValid(const AZ::EBus<T>& bus)] *)
Definition IsValid_EBus {T} (bus : EBus T) : bool :=
  EBus_IsConnected bus.

(** [bool IsValid(const AZ::SerializeContext* context)] *)
Definition IsValid_SerializeContext (context : Ptr SerializeContext)
    : Eval bool :=
  ret (to_bool context) &&& SerializeContext_IsReady context.

(** [bool IsValid(const AZ::TickBus& tickBus)] *)
Definition IsValid_TickBus (tickBus : TickBus) : bool :=
  TickBus_IsConnected tickBus.

(** ** Overload selection by the static type of the argument *)

(** One constructor per handle category the header supports.  [T] stands for
    a pointee type with no overload of its own, [V] and [E] for the success
    and failure payloads of an outcome. *)
Inductive Handle (T V E : Type) : Type :=
  | HPtr (object : Ptr T)
  | HSharedPtr (smartPtr : shared_ptr T)
  | HUniquePtr (uniquePtr : unique_ptr T)
  | HEntity (entity : Ptr Entity)
  | HComponent (component : Ptr Component)
  | HAsset (asset : Asset T)
  | HRHIPtr (ptr : RHI.Ptr T)
  | HRPIPtr (ptr : RPI.Ptr T)
  | HViewPtr (ptr : RPI.ViewPtr)
  | HScenePtr (ptr : RPI.ScenePtr)
  | HRenderPipelinePtr (ptr : RPI.RenderPipelinePtr)
  | HShaderResourceGroupPtr (ptr : RHI.ShaderResourceGroupPtr)
  | HPipelineStatePtr (ptr : RHI.PipelineStatePtr)
  | HInstance (instance : Data.Instance T)
  | HOutcome (outcome : Outcome V E)
  | HJob (job : Ptr Job)
  | HEBus (bus : EBus T)
  | HSerializeContext (context : Ptr SerializeContext)
  | HTickBus (tickBus : TickBus).
Arguments HPtr {T V E} object.
Arguments HSharedPtr {T V E} smartPtr.
Arguments HUniquePtr {T V E} uniquePtr.
Arguments HEntity {T V E} entity.
Arguments HComponent {T V E} component.
Arguments HAsset {T V E} asset.
Arguments HRHIPtr {T V E} ptr.
Arguments HRPIPtr {T V E} ptr.
Arguments HViewPtr {T V E} ptr.
Arguments HScenePtr {T V E} ptr.
Arguments HRenderPipelinePtr {T V E} ptr.
Arguments HShaderResourceGroupPtr {T V E} ptr.
Arguments HPipelineStatePtr {T V E} ptr.
Arguments HInstance {T V E} instance.
Arguments HOutcome {T V E} outcome.
Arguments HJob {T V E} job.
Arguments HEBus {T V E} bus.
Arguments HSerializeContext {T V E} context.
Arguments HTickBus {T V E} tickBus.

(** [IsValid(x)] : the overload for the category of [x]. *)
Definition IsValid {T V E} (x : Handle T V E) : Eval bool :=
  match x with
  | HPtr object => ret (IsValid_ptr object)
  | HSharedPtr smartPtr => ret (IsValid_shared_ptr smartPtr)
  | HUniquePtr uniquePtr => ret (IsValid_unique_ptr uniquePtr)
  | HEntity entity => IsValid_Entity entity
  | HComponent component => IsValid_Component component
  | HAsset asset => ret (IsValid_Asset asset)
  | HRHIPtr ptr => ret (IsValid_RHI_Ptr ptr)
  | HRPIPtr ptr => ret (IsValid_RPI_Ptr ptr)
  | HViewPtr ptr => ret (IsValid_ViewPtr ptr)
  | HScenePtr ptr => ret (IsValid_ScenePtr ptr)
  | HRenderPipelinePtr ptr => ret (IsValid_RenderPipelinePtr ptr)
  | HShaderResourceGroupPtr ptr => ret (IsValid_ShaderResourceGroupPtr ptr)
  | HPipelineStatePtr ptr => ret (IsValid_PipelineStatePtr ptr)
  | HInstance instance => ret (IsValid_Instance instance)
  | HOutcome outcome => ret (IsValid_Outcome outcome)
  | HJob job => IsValid_Job job
  | HEBus bus => ret (IsValid_EBus bus)
  | HSerializeContext context => IsValid_SerializeContext context
  | HTickBus tickBus => ret (IsValid_TickBus tickBus)
  end.

End AZ.
Import AZ.

(** ** Spec-side vocabulary *)

(** The single-read form of the component check: the owning entity is bound
    once, and the null test and the state test are applied to that one
    observation. *)
Definition IsValid_Component_single_read (component : Ptr Component)
    : Eval bool :=
  ret (to_bool component)
  &&& (let! e := Component_GetEntity component in
       ret (to_bool e)
       &&& (let! s := Entity_GetState e in ret (State_eqb s Active))).

(** The empty/null state of each handle category: a null raw pointer, an
    owning or render handle that stores the null pointer, an asset that is
    neither loaded nor identified.  Outcomes and buses have no such state. *)
Definition is_empty {T V E} (x : Handle T V E) : bool :=
  match x with
  | HPtr object => is_nullptr object
  | HSharedPtr smartPtr => is_nullptr (sp_px smartPtr)
  | HUniquePtr uniquePtr => is_nullptr (up_ptr uniquePtr)
  | HEntity entity => is_nullptr entity
  | HComponent component => is_nullptr component
  | HAsset asset =>
      negb (Asset_IsReady asset) && negb (AssetId_IsValid (Asset_GetId asset))
  | HRHIPtr ptr => is_nullptr (ip_px ptr)
  | HRPIPtr ptr => is_nullptr (ip_px ptr)
  | HViewPtr ptr => is_nullptr (sp_px ptr)
  | HScenePtr ptr => is_nullptr (sp_px ptr)
  | HRenderPipelinePtr ptr => is_nullptr (sp_px ptr)
  | HShaderResourceGroupPtr ptr => is_nullptr (ip_px ptr)
  | HPipelineStatePtr ptr => is_nullptr (ip_px ptr)
  | HInstance instance => is_nullptr (ip_px instance)
  | HOutcome _ => false
  | HJob job => is_nullptr job
  | HEBus _ => false
  | HSerializeContext context => is_nullptr context
  | HTickBus _ => false
  end.

(** The pointer categories with no secondary probe, with the address the
    handle holds. *)
Definition plain_pointer {T V E} (x : Handle T V E) : option (option addr) :=
  match x with
  | HPtr object => Some (address object)
  | HSharedPtr smartPtr => Some (address (sp_px smartPtr))
  | HUniquePtr uniquePtr => Some (address (up_ptr uniquePtr))
  | HRHIPtr ptr => Some (address (ip_px ptr))
  | HRPIPtr ptr => Some (address (ip_px ptr))
  | HViewPtr ptr => Some (address (sp_px ptr))
  | HScenePtr ptr => Some (address (sp_px ptr))
  | HRenderPipelinePtr ptr => Some (address (sp_px ptr))
  | HShaderResourceGroupPtr ptr => Some (address (ip_px ptr))
  | HPipelineStatePtr ptr => Some (address (ip_px ptr))
  | HInstance instance => Some (address (ip_px instance))
  | _ => None
  end.

(** The composite categories (a null check followed by a secondary probe),
    with the address of the primary pointer. *)
Definition composite_primary {T V E} (x : Handle T V E)
    : option (option addr) :=
  match x with
  | HEntity entity => Some (address entity)
  | HComponent component => Some (address component)
  | HSerializeContext context => Some (address context)
  | HJob job => Some (address job)
  | _ => None
  end.

(** Two outcomes agree on their discriminant, whatever they carry. *)
Definition same_discriminant {T1 E1 T2 E2}
    (o1 : Outcome T1 E1) (o2 : Outcome T2 E2) : Prop :=
  match o1, o2 with
  | Success _, Success _ => True
  | Failure _, Failure _ => True
  | _, _ => False
  end.

(** A heap to evaluate the predicates on: entity 1 is active, entity 2 is
    deactivating; component 10 belongs to entity 1, component 11 to no
    entity, component 12 to entity 2; job 20 runs, job 21 is cancelled. *)
Definition sample_heap : Heap := {|
  entities := {[ 1%N := {| m_state := Active |};
                 2%N := {| m_state := Deactivating |} ]};
  components := {[ 10%N := {| m_entity := ref 1%N |};
                   11%N := {| m_entity := nullptr |};
                   12%N := {| m_entity := ref 2%N |} ]};
  jobs := {[ 20%N := {| m_cancelled := false |};
             21%N := {| m_cancelled := true |} ]};
  contexts := {[ 30%N := {| m_ready := true |} ]}
|}.

(** A pointer that may be used: the null pointer, or the address of a live
    object of its type. *)
Definition usable {T} `{Stored T} (h : Heap) (p : Ptr T) : bool :=
  match p with
  | nullptr => true
  | ref a => match store h !! a with Some _ => true | None => false end
  end.

(** The pointers an overload may follow are usable: the argument of a
    composite overload and, for a live component, its owning entity. *)
Definition well_formed {T V E} (h : Heap) (x : Handle T V E) : bool :=
  match x with
  | HEntity entity => usable h entity
  | HComponent component =>
      usable h component
      && match deref h component with
         | Some comp => usable h (m_entity comp)
         | None => true
         end
  | HJob job => usable h job
  | HSerializeContext context => usable h context
  | _ => true
  end.

(** A second heap: entity 1 is active as in [sample_heap], components 10 and
    13 both belong to it, and context 30 is not ready. *)
Definition busy_heap : Heap := {|
  entities := {[ 1%N := {| m_state := Active |};
                 3%N := {| m_state := Init |} ]};
  components := {[ 10%N := {| m_entity := ref 1%N |};
                   13%N := {| m_entity := ref 1%N |} ]};
  jobs := ∅;
  contexts := {[ 30%N := {| m_ready := false |} ]}
|}.

(** Unfolds the evaluation monad down to heap lookups. *)
Ltac run_eval :=
  cbv beta iota zeta delta
    [IsValid_Entity IsValid_Component IsValid_Component_single_read
     IsValid_Job IsValid_SerializeContext
     Entity_GetState Component_GetEntity Job_IsCancelled
     SerializeContext_IsReady
     and_then bind ret call deref store address
     Stored_Entity Stored_Component Stored_Job Stored_SerializeContext
     to_bool ne_nullptr is_nullptr negb app fmap option_fmap option_map].

(** ** Evaluation lemmas *)

Lemma State_eqb_Active (s : State) : State_eqb s Active = true <-> s = Active.
Proof. destruct s; simpl; split; congruence. Qed.

Lemma ne_nullptr_true {T} (p : Ptr T) : ne_nullptr p = true <-> p <> nullptr.
Proof. destruct p; unfold ne_nullptr; simpl; split; intros; congruence. Qed.

Lemma IsValid_Entity_run (h : Heap) (entity : Ptr Entity) :
  IsValid_Entity entity h =
  match entity with
  | nullptr => ([], Some false)
  | ref a =>
      ([{| accessor := AccGetState; receiver := Some a |}],
       (fun ent => State_eqb (m_state ent) Active) <$> entities h !! a)
  end.
Proof.
  destruct entity as [|a]; run_eval; [reflexivity|].
  destruct (entities h !! a); reflexivity.
Qed.

Lemma IsValid_Component_run (h : Heap) (component : Ptr Component) :
  IsValid_Component component h =
  match component with
  | nullptr => ([], Some false)
  | ref c =>
      let getEntity := {| accessor := AccGetEntity; receiver := Some c |} in
      match components h !! c with
      | None => ([getEntity], None)
      | Some comp =>
          match m_entity comp with
          | nullptr => ([getEntity], Some false)
          | ref a =>
              ([getEntity; getEntity;
                {| accessor := AccGetState; receiver := Some a |}],
               (fun ent => State_eqb (m_state ent) Active) <$> entities h !! a)
          end
      end
  end.
Proof.
  destruct component as [|c]; run_eval; [reflexivity|].
  destruct (components h !! c) as [[[|a]]|] eqn:Hc;
    run_eval; cbn [m_entity]; try reflexivity.
  rewrite ?Hc; run_eval; cbn [m_entity].
  destruct (entities h !! a); reflexivity.
Qed.

Lemma IsValid_Component_single_read_run (h : Heap) (component : Ptr Component) :
  IsValid_Component_single_read component h =
  match component with
  | nullptr => ([], Some false)
  | ref c =>
      let getEntity := {| accessor := AccGetEntity; receiver := Some c |} in
      match components h !! c with
      | None => ([getEntity], None)
      | Some comp =>
          match m_entity comp with
          | nullptr => ([getEntity], Some false)
          | ref a =>
              ([getEntity; {| accessor := AccGetState; receiver := Some a |}],
               (fun ent => State_eqb (m_state ent) Active) <$> entities h !! a)
          end
      end
  end.
Proof.
  destruct component as [|c]; run_eval; [reflexivity|].
  destruct (components h !! c) as [[[|a]]|] eqn:Hc;
    run_eval; cbn [m_entity]; try reflexivity.
  rewrite ?Hc; run_eval; cbn [m_entity].
  destruct (entities h !! a); reflexivity.
Qed.

Lemma IsValid_Job_run (h : Heap) (job : Ptr Job) :
  IsValid_Job job h =
  match job with
  | nullptr => ([], Some false)
  | ref a =>
      ([{| accessor := AccIsCancelled; receiver := Some a |}],
       (fun j => negb (m_cancelled j)) <$> jobs h !! a)
  end.
Proof.
  destruct job as [|a]; run_eval; [reflexivity|].
  destruct (jobs h !! a); reflexivity.
Qed.

Lemma IsValid_SerializeContext_run (h : Heap) (context : Ptr SerializeContext) :
  IsValid_SerializeContext context h =
  match context with
  | nullptr => ([], Some false)
  | ref a =>
      ([{| accessor := AccIsReady; receiver := Some a |}],
       m_ready <$> contexts h !! a)
  end.
Proof.
  destruct context as [|a]; run_eval; [reflexivity|].
  destruct (contexts h !! a); reflexivity.
Qed.

Lemma verdict_Entity_GetState (h : Heap) (entity : Ptr Entity) :
  verdict (Entity_GetState entity) h =
  match entity with
  | nullptr => None
  | ref a => m_state <$> entities h !! a
  end.
Proof. destruct entity; reflexivity. Qed.

Lemma verdict_Component_GetEntity (h : Heap) (component : Ptr Component) :
  verdict (Component_GetEntity component) h =
  match component with
  | nullptr => None
  | ref c => m_entity <$> components h !! c
  end.
Proof. destruct component; reflexivity. Qed.

Lemma verdict_Job_IsCancelled (h : Heap) (job : Ptr Job) :
  verdict (Job_IsCancelled job) h =
  match job with
  | nullptr => None
  | ref a => m_cancelled <$> jobs h !! a
  end.
Proof. destruct job; reflexivity. Qed.

Lemma verdict_IsValid_Entity (h : Heap) (entity : Ptr Entity) :
  verdict (IsValid_Entity entity) h =
  match entity with
  | nullptr => Some false
  | ref a => (fun ent => State_eqb (m_state ent) Active) <$> entities h !! a
  end.
Proof. unfold verdict. rewrite IsValid_Entity_run. by destruct entity. Qed.

Lemma non_Active_states (s : State) :
  s <> Active <->
  s ∈ [Constructed; Init; Activating; Deactivating; Destroyed].
Proof.
  rewrite !elem_of_cons, elem_of_nil.
  destruct s; split; intros H; try congruence; auto 10.
  all: repeat (destruct H as [H|H]; [discriminate H|]); destruct H.
Qed.

(** Two successive calls of the owning-entity accessor on the same
    component observe the same entity: the accessor only reads the heap. *)
Lemma Component_GetEntity_twice (h : Heap) (component : Ptr Component) :
  verdict (let! e1 := Component_GetEntity component in
           let! e2 := Component_GetEntity component in
           ret (e1, e2)) h
  = (fun e => (e, e)) <$> verdict (Component_GetEntity component) h.
Proof.
  rewrite verdict_Component_GetEntity. unfold verdict. run_eval.
  destruct component as [|c]; [reflexivity|].
  destruct (components h !! c) as [comp|] eqn:Hc; [|reflexivity].
  run_eval; rewrite ?Hc; reflexivity.
Qed.

(** ** The scenarios of the specification, evaluated *)

Example raw_pointer_null : IsValid_ptr (nullptr : Ptr unit) = false.
Proof. reflexivity. Qed.

Example raw_pointer_object : IsValid_ptr (ref 5%N : Ptr unit) = true.
Proof. reflexivity. Qed.

Example entity_active :
  IsValid_Entity (ref 1%N) sample_heap
  = ([{| accessor := AccGetState; receiver := Some 1%N |}], Some true).
Proof. reflexivity. Qed.

Example entity_deactivating :
  verdict (IsValid_Entity (ref 2%N)) sample_heap = Some false.
Proof. reflexivity. Qed.

Example entity_null : IsValid_Entity nullptr sample_heap = ([], Some false).
Proof. reflexivity. Qed.

Example component_of_active_entity :
  IsValid_Component (ref 10%N) sample_heap
  = ([{| accessor := AccGetEntity; receiver := Some 10%N |};
      {| accessor := AccGetEntity; receiver := Some 10%N |};
      {| accessor := AccGetState; receiver := Some 1%N |}], Some true).
Proof. reflexivity. Qed.

Example component_of_inactive_entity :
  verdict (IsValid_Component (ref 12%N)) sample_heap = Some false.
Proof. reflexivity. Qed.

Example component_without_entity :
  IsValid_Component (ref 11%N) sample_heap
  = ([{| accessor := AccGetEntity; receiver := Some 11%N |}], Some false).
Proof. reflexivity. Qed.

Example asset_ready_and_identified :
  IsValid_Asset ({| m_assetReady := true;
                    m_assetId := {| m_idValid := true |} |} : Asset unit)
  = true.
Proof. reflexivity. Qed.

Example asset_not_ready :
  IsValid_Asset ({| m_assetReady := false;
                    m_assetId := {| m_idValid := true |} |} : Asset unit)
  = false.
Proof. reflexivity. Qed.

Example outcome_failure :
  IsValid_Outcome (Failure 3 : Outcome unit nat) = false.
Proof. reflexivity. Qed.

Example job_running :
  verdict (IsValid_Job (ref 20%N)) sample_heap = Some true.
Proof. reflexivity. Qed.

Example job_cancelled :
  verdict (IsValid_Job (ref 21%N)) sample_heap = Some false.
Proof. reflexivity. Qed.

Example job_null : IsValid_Job nullptr sample_heap = ([], Some false).
Proof. reflexivity. Qed.

(** A pointer to no live object: the state is fetched and the evaluation has
    no value. *)
Example entity_dangling :
  IsValid_Entity (ref 3%N) sample_heap
  = ([{| accessor := AccGetState; receiver := Some 3%N |}], None).
Proof. reflexivity. Qed.

(** ** The entity and component predicates *)

(** C1.  For every entity pointer, [IsValid] answers true exactly when the
    pointer is non-null and the entity reports the state [Active]; when it
    reports any of Constructed, Init, Activating, Deactivating or Destroyed
    (which are all the states other than [Active]) the answer is false.  On
    the null pointer the answer is false and the state accessor is not
    called; on no pointer is it called through null. *)
Theorem IsValid_Entity_iff_Active (h : Heap) (entity : Ptr Entity) :
  (verdict (IsValid_Entity entity) h = Some true <->
   entity <> nullptr /\ verdict (Entity_GetState entity) h = Some Active)
  /\ (forall s : State,
        s ∈ [Constructed; Init; Activating; Deactivating; Destroyed] ->
        verdict (Entity_GetState entity) h = Some s ->
        verdict (IsValid_Entity entity) h = Some false)
  /\ (forall s : State,
        s <> Active ->
        s ∈ [Constructed; Init; Activating; Deactivating; Destroyed])
  /\ (entity = nullptr -> IsValid_Entity entity h = ([], Some false))
  /\ Forall (fun pr => receiver pr <> None) (probes (IsValid_Entity entity) h).
Proof.
  rewrite verdict_IsValid_Entity, verdict_Entity_GetState.
  split; [|split; [|split; [|split]]].
  - destruct entity as [|a]; simpl.
    + split; [discriminate|]. intros [H _]. congruence.
    + destruct (entities h !! a) as [[s]|]; simpl.
      * split.
        -- intros [= H]. apply State_eqb_Active in H. subst s.
           split; [discriminate|reflexivity].
        -- intros [_ [= ->]]. reflexivity.
      * split; [discriminate|]. intros [_ H]. discriminate H.
  - intros s Hs. apply non_Active_states in Hs.
    destruct entity as [|a]; simpl; [discriminate|].
    destruct (entities h !! a) as [[s']|]; simpl; [|discriminate].
    intros [= ->]. f_equal.
    destruct (State_eqb s Active) eqn:E; [|reflexivity].
    apply State_eqb_Active in E. contradiction.
  - intros s. apply non_Active_states.
  - intros ->. reflexivity.
  - unfold probes. rewrite IsValid_Entity_run.
    destruct entity as [|a]; simpl; repeat constructor; discriminate.
Qed.

Lemma IsValid_Entity_iff_Active_witness :
  Deactivating ∈ [Constructed; Init; Activating; Deactivating; Destroyed]
  /\ verdict (Entity_GetState (ref 2%N)) sample_heap = Some Deactivating
  /\ verdict (IsValid_Entity (ref 2%N)) sample_heap = Some false.
Proof.
  assert (Hin : Deactivating
                ∈ [Constructed; Init; Activating; Deactivating; Destroyed]).
  { do 3 apply list_elem_of_further. apply list_elem_of_here. }
  split; [exact Hin|]. split; [reflexivity|].
  exact (proj1 (proj2 (IsValid_Entity_iff_Active sample_heap (ref 2%N)))
           Deactivating Hin eq_refl).
Defined.

(** C2.  For a non-null component pointer whose owning-entity accessor
    returns null, [IsValid] answers false, and the only calls it makes are
    calls of that accessor on the component: no state is fetched through the
    null entity.  When the accessor returns a non-null entity, the answer is
    that of the entity predicate on that entity pointer. *)
Theorem IsValid_Component_owner (h : Heap) (component : Ptr Component)
    (owner : Ptr Entity) :
  component <> nullptr ->
  verdict (Component_GetEntity component) h = Some owner ->
  (owner = nullptr ->
     verdict (IsValid_Component component) h = Some false
     /\ Forall (fun pr => accessor pr = AccGetEntity
                          /\ receiver pr = address component)
          (probes (IsValid_Component component) h))
  /\ (owner <> nullptr ->
        verdict (IsValid_Component component) h =
        verdict (IsValid_Entity owner) h).
Proof.
  intros Hc. rewrite verdict_Component_GetEntity.
  unfold verdict, probes. rewrite IsValid_Component_run.
  destruct component as [|c]; [congruence|]. simpl.
  destruct (components h !! c) as [comp|]; simpl; [|discriminate].
  intros [= <-]. split.
  - intros ->. simpl. split; [reflexivity|].
    repeat constructor.
  - intros Ho. rewrite IsValid_Entity_run.
    destruct (m_entity comp) as [|a]; [congruence|]. reflexivity.
Qed.

Lemma IsValid_Component_owner_witness :
  (ref 11%N : Ptr Component) <> nullptr
  /\ verdict (Component_GetEntity (ref 11%N)) sample_heap = Some nullptr
  /\ verdict (IsValid_Component (ref 11%N)) sample_heap = Some false.
Proof.
  assert (Hne : (ref 11%N : Ptr Component) <> nullptr) by discriminate.
  split; [exact Hne|]. split; [reflexivity|].
  exact (proj1 (proj1 (IsValid_Component_owner sample_heap (ref 11%N) nullptr
                         Hne eq_refl) eq_refl)).
Defined.

(** ** Assets and jobs *)

(** C3.  For every asset handle, [IsValid] answers true exactly when the
    asset is ready and its identifier is valid; when either of the two is
    false the answer is false. *)
Theorem IsValid_Asset_iff_ready_and_id {T} (asset : Asset T) :
  (IsValid_Asset asset = true <->
   Asset_IsReady asset = true /\ AssetId_IsValid (Asset_GetId asset) = true)
  /\ (Asset_IsReady asset = false
      \/ AssetId_IsValid (Asset_GetId asset) = false ->
      IsValid_Asset asset = false).
Proof.
  unfold IsValid_Asset. split.
  - apply andb_true_iff.
  - intros [-> | ->]; [reflexivity | apply andb_false_r].
Qed.

Lemma IsValid_Asset_iff_ready_and_id_witness :
  let asset : Asset unit :=
    {| m_assetReady := true; m_assetId := {| m_idValid := false |} |} in
  (Asset_IsReady asset = false \/ AssetId_IsValid (Asset_GetId asset) = false)
  /\ IsValid_Asset asset = false.
Proof.
  intros asset.
  assert (H : Asset_IsReady asset = false
              \/ AssetId_IsValid (Asset_GetId asset) = false)
    by (right; reflexivity).
  split; [exact H|].
  exact (proj2 (IsValid_Asset_iff_ready_and_id asset) H).
Defined.

(** C4.  For every job pointer, [IsValid] answers true exactly when the
    pointer is non-null and the job reports that it is not cancelled; a null
    job pointer and a non-null cancelled job both get false. *)
Theorem IsValid_Job_iff_not_cancelled (h : Heap) (job : Ptr Job) :
  (verdict (IsValid_Job job) h = Some true <->
   job <> nullptr /\ verdict (Job_IsCancelled job) h = Some false)
  /\ (job = nullptr -> verdict (IsValid_Job job) h = Some false)
  /\ (job <> nullptr ->
      verdict (Job_IsCancelled job) h = Some true ->
      verdict (IsValid_Job job) h = Some false).
Proof.
  rewrite verdict_Job_IsCancelled.
  unfold verdict. rewrite IsValid_Job_run.
  destruct job as [|a]; simpl.
  - split; [|split]; [|reflexivity|congruence].
    split; [discriminate|]. intros [H _]. congruence.
  - destruct (jobs h !! a) as [[cancelled]|]; simpl.
    + split; [|split]; [|discriminate|].
      * destruct cancelled; simpl; split; try discriminate.
        -- intros [_ H]. discriminate H.
        -- intros _. split; [discriminate|reflexivity].
        -- reflexivity.
      * intros _ [= ->]. reflexivity.
    + split; [|split]; [|discriminate|discriminate].
      split; [discriminate|]. intros [_ H]. discriminate H.
Qed.

Lemma IsValid_Job_iff_not_cancelled_witness :
  (ref 21%N : Ptr Job) <> nullptr
  /\ verdict (Job_IsCancelled (ref 21%N)) sample_heap = Some true
  /\ verdict (IsValid_Job (ref 21%N)) sample_heap = Some false.
Proof.
  assert (Hne : (ref 21%N : Ptr Job) <> nullptr) by discriminate.
  split; [exact Hne|]. split; [reflexivity|].
  exact (proj2 (proj2 (IsValid_Job_iff_not_cancelled sample_heap (ref 21%N)))
           Hne eq_refl).
Defined.

(** ** The whole family *)

(** C5.  Whatever the category, a handle in its empty/null state gets the
    answer false; the answer is reached without any member call through a
    pointer. *)
Theorem IsValid_empty_false {T V E} (x : Handle T V E) (h : Heap) :
  is_empty x = true -> IsValid x h = ([], Some false).
Proof.
  destruct x as [p|[p n]|[p]|p|p|[r [i]]|[p]|[p]|[p n]|[p n]|[p n]|[p]|[p]|[p]
                 |o|p|b|p|b];
    simpl; try discriminate;
    try (destruct p; simpl; [reflexivity|discriminate]).
  destruct r, i; simpl; try discriminate. reflexivity.
Qed.

Lemma IsValid_empty_false_witness :
  is_empty (HSharedPtr {| sp_px := nullptr; sp_use_count := 0 |}
              : Handle unit unit unit) = true
  /\ IsValid (HSharedPtr {| sp_px := nullptr; sp_use_count := 0 |}
                : Handle unit unit unit) sample_heap = ([], Some false).
Proof.
  split; [reflexivity|].
  exact (IsValid_empty_false
           (HSharedPtr {| sp_px := nullptr; sp_use_count := 0 |}
              : Handle unit unit unit) sample_heap eq_refl).
Defined.

(** C6.  A handle of a pointer category with no secondary probe (raw
    pointer, shared and unique handles, RHI::Ptr, RPI::Ptr, ViewPtr,
    ScenePtr, RenderPipelinePtr, ShaderResourceGroupPtr, PipelineStatePtr,
    Data::Instance) that holds an address gets the answer true. *)
Theorem IsValid_plain_pointer_true {T V E} (x : Handle T V E) (a : addr)
    (h : Heap) :
  plain_pointer x = Some (Some a) -> IsValid x h = ([], Some true).
Proof.
  destruct x as [p|[p n]|[p]|p|p|r|[p]|[p]|[p n]|[p n]|[p n]|[p]|[p]|[p]
                 |o|p|b|p|b];
    simpl; try discriminate;
    destruct p; simpl; (discriminate || reflexivity).
Qed.

Lemma IsValid_plain_pointer_true_witness :
  plain_pointer (HViewPtr {| sp_px := ref 7%N; sp_use_count := 2 |}
                   : Handle unit unit unit) = Some (Some 7%N)
  /\ IsValid (HViewPtr {| sp_px := ref 7%N; sp_use_count := 2 |}
                : Handle unit unit unit) sample_heap = ([], Some true).
Proof.
  split; [reflexivity|].
  exact (IsValid_plain_pointer_true
           (HViewPtr {| sp_px := ref 7%N; sp_use_count := 2 |}
              : Handle unit unit unit) 7%N sample_heap eq_refl).
Defined.

(** C7.  In the composite overloads (entity, component, serialization
    context, job) the null test comes first: on a null primary pointer the
    answer is false and no accessor is called at all, and on any argument
    no accessor is ever called through a null pointer. *)
Theorem IsValid_composite_short_circuit {T V E} (x : Handle T V E)
    (primary : option addr) (h : Heap) :
  composite_primary x = Some primary ->
  (primary = None -> IsValid x h = ([], Some false))
  /\ Forall (fun pr => receiver pr <> None) (probes (IsValid x) h).
Proof.
  unfold probes.
  destruct x as [p|p|p|p|p|r|p|p|p|p|p|p|p|p|o|p|b|p|b];
    simpl; try discriminate; intros [= <-].
  - rewrite IsValid_Entity_run. destruct p as [|a]; simpl.
    + split; [reflexivity|constructor].
    + split; [discriminate|]. repeat constructor; discriminate.
  - rewrite IsValid_Component_run. destruct p as [|c]; simpl.
    + split; [reflexivity|constructor].
    + split; [discriminate|].
      destruct (components h !! c) as [[[|a]]|]; simpl;
        repeat constructor; discriminate.
  - rewrite IsValid_Job_run. destruct p as [|a]; simpl.
    + split; [reflexivity|constructor].
    + split; [discriminate|]. repeat constructor; discriminate.
  - rewrite IsValid_SerializeContext_run. destruct p as [|a]; simpl.
    + split; [reflexivity|constructor].
    + split; [discriminate|]. repeat constructor; discriminate.
Qed.

Lemma IsValid_composite_short_circuit_witness :
  composite_primary (HSerializeContext nullptr : Handle unit unit unit)
  = Some None
  /\ IsValid (HSerializeContext nullptr : Handle unit unit unit) sample_heap
     = ([], Some false).
Proof.
  split; [reflexivity|].
  exact (proj1 (IsValid_composite_short_circuit
                  (HSerializeContext nullptr : Handle unit unit unit)
                  None sample_heap eq_refl) eq_refl).
Defined.

(** ** Outcomes and owning handles *)

(** C8.  For every outcome, [IsValid] answers true exactly when the outcome
    is a success (and false exactly when it is a failure), and two outcomes
    with the same discriminant get the same answer whatever payloads, of
    whatever types, they carry. *)
Theorem IsValid_Outcome_iff_success {T E} (outcome : Outcome T E) :
  (IsValid_Outcome outcome = true <-> exists value, outcome = Success value)
  /\ (IsValid_Outcome outcome = false <-> exists error, outcome = Failure error)
  /\ (forall (T' E' : Type) (other : Outcome T' E'),
        same_discriminant outcome other ->
        IsValid_Outcome outcome = IsValid_Outcome other).
Proof.
  destruct outcome as [value|error]; simpl.
  - split; [|split].
    + split; [|reflexivity]. intros _. exists value. reflexivity.
    + split; [discriminate|]. intros [error H]. discriminate H.
    + intros T' E' other. destruct other; simpl; [reflexivity|contradiction].
  - split; [|split].
    + split; [discriminate|]. intros [value H]. discriminate H.
    + split; [|reflexivity]. intros _. exists error. reflexivity.
    + intros T' E' other. destruct other; simpl; [contradiction|reflexivity].
Qed.

Lemma IsValid_Outcome_iff_success_witness :
  same_discriminant (Success 1 : Outcome nat bool)
                    (Success true : Outcome bool nat)
  /\ IsValid_Outcome (Success 1 : Outcome nat bool)
     = IsValid_Outcome (Success true : Outcome bool nat).
Proof.
  split; [exact I|].
  exact (proj2 (proj2 (IsValid_Outcome_iff_success
                         (Success 1 : Outcome nat bool)))
           bool nat (Success true) I).
Defined.

(** C9.  For the owning handles with no secondary probe (shared_ptr,
    unique_ptr, Data::Instance) the answer is that of the raw-pointer
    predicate on the stored pointer: true exactly when the stored pointer is
    non-null.  Handles that store the same pointer get the same answer in
    every heap, whatever their reference counts and whatever the state of
    the pointee, which is never probed. *)
Theorem IsValid_owning_handle_stored_pointer {T} (smartPtr : shared_ptr T)
    (uniquePtr : unique_ptr T) (instance : Data.Instance T) :
  (IsValid_shared_ptr smartPtr = IsValid_ptr (sp_px smartPtr)
   /\ IsValid_unique_ptr uniquePtr = IsValid_ptr (up_ptr uniquePtr)
   /\ IsValid_Instance instance = IsValid_ptr (ip_px instance))
  /\ ((IsValid_shared_ptr smartPtr = true <-> sp_px smartPtr <> nullptr)
      /\ (IsValid_unique_ptr uniquePtr = true <-> up_ptr uniquePtr <> nullptr)
      /\ (IsValid_Instance instance = true <-> ip_px instance <> nullptr))
  /\ (forall (V E : Type) (h h' : Heap),
        (forall count : nat,
           IsValid (HSharedPtr {| sp_px := sp_px smartPtr;
                                  sp_use_count := count |}
                      : Handle T V E) h'
           = ([], Some (IsValid_ptr (sp_px smartPtr))))
        /\ IsValid (HSharedPtr smartPtr : Handle T V E) h
           = IsValid (HSharedPtr smartPtr : Handle T V E) h'
        /\ IsValid (HUniquePtr uniquePtr : Handle T V E) h
           = IsValid (HUniquePtr uniquePtr : Handle T V E) h'
        /\ IsValid (HInstance instance : Handle T V E) h
           = IsValid (HInstance instance : Handle T V E) h'
        /\ probes (IsValid (HSharedPtr smartPtr : Handle T V E)) h = []
        /\ probes (IsValid (HUniquePtr uniquePtr : Handle T V E)) h = []
        /\ probes (IsValid (HInstance instance : Handle T V E)) h = []).
Proof.
  split; [|split].
  - repeat split.
  - unfold IsValid_shared_ptr, IsValid_unique_ptr, IsValid_Instance,
      shared_ptr_ne_nullptr, unique_ptr_ne_nullptr, intrusive_ptr_ne_nullptr.
    repeat split; apply ne_nullptr_true.
  - intros V E h h'. repeat split.
Qed.

(** ** The two reads of the owning entity *)

(** C10.  The component overload as written, which calls the owning-entity
    accessor once for the null test and once more to fetch the state, gives
    for every component pointer and every heap the answer of the form that
    calls the accessor once and tests that one result.  The two differ only
    in the calls they make: the overload makes one more call of the accessor
    on the component when the owning entity is non-null. *)
Theorem IsValid_Component_double_read (h : Heap) (component : Ptr Component) :
  verdict (IsValid_Component component) h
  = verdict (IsValid_Component_single_read component) h
  /\ probes (IsValid_Component component) h
     = match verdict (Component_GetEntity component) h with
       | Some (ref _) =>
           [{| accessor := AccGetEntity; receiver := address component |}]
       | _ => []
       end ++ probes (IsValid_Component_single_read component) h.
Proof.
  rewrite verdict_Component_GetEntity. unfold verdict, probes.
  rewrite IsValid_Component_run, IsValid_Component_single_read_run.
  destruct component as [|c]; simpl; [split; reflexivity|].
  destruct (components h !! c) as [[[|a]]|]; simpl; split; reflexivity.
Qed.

(** ** The serialization context *)

Lemma verdict_SerializeContext_IsReady (h : Heap)
    (context : Ptr SerializeContext) :
  verdict (SerializeContext_IsReady context) h =
  match context with
  | nullptr => None
  | ref a => m_ready <$> contexts h !! a
  end.
Proof. destruct context; reflexivity. Qed.

(** X1.  For every serialization-context pointer, [IsValid] answers true
    exactly when the pointer is non-null and the context reports that it is
    ready; a non-null context that is not ready gets false, and the null
    pointer gets false without the readiness accessor being called. *)
Theorem IsValid_SerializeContext_iff_ready (h : Heap)
    (context : Ptr SerializeContext) :
  (verdict (IsValid_SerializeContext context) h = Some true <->
   context <> nullptr
   /\ verdict (SerializeContext_IsReady context) h = Some true)
  /\ (context <> nullptr ->
      verdict (SerializeContext_IsReady context) h = Some false ->
      verdict (IsValid_SerializeContext context) h = Some false)
  /\ (context = nullptr ->
      IsValid_SerializeContext context h = ([], Some false)).
Proof.
  rewrite verdict_SerializeContext_IsReady.
  unfold verdict. rewrite IsValid_SerializeContext_run.
  destruct context as [|a]; simpl.
  - split; [|split]; [|congruence|reflexivity].
    split; [discriminate|]. intros [H _]. congruence.
  - split; [|split]; [|auto|discriminate].
    split; [|tauto]. intros H. split; [discriminate|exact H].
Qed.

Lemma IsValid_SerializeContext_iff_ready_witness :
  (ref 30%N : Ptr SerializeContext) <> nullptr
  /\ verdict (SerializeContext_IsReady (ref 30%N)) busy_heap = Some false
  /\ verdict (IsValid_SerializeContext (ref 30%N)) busy_heap = Some false.
Proof.
  assert (Hne : (ref 30%N : Ptr SerializeContext) <> nullptr) by discriminate.
  split; [exact Hne|]. split; [reflexivity|].
  exact (proj1 (proj2 (IsValid_SerializeContext_iff_ready busy_heap
                         (ref 30%N)))
           Hne eq_refl).
Defined.

(** ** Undefined behaviour, member calls and the heap *)

Lemma is_Some_true {A} (o : option A) :
  is_Some o <-> match o with Some _ => true | None => false end = true.
Proof.
  destruct o; split; try reflexivity; try discriminate.
  - intros _. eexists. reflexivity.
  - intros [x H]. discriminate H.
Qed.

(** X2.  An overload has an answer exactly when the pointers it follows are
    usable: the evaluation has no value only for a composite overload whose
    argument, or whose component's owning entity, is a non-null pointer to
    no live object. *)
Theorem IsValid_answers_iff_well_formed {T V E} (x : Handle T V E)
    (h : Heap) :
  is_Some (verdict (IsValid x) h) <-> well_formed h x = true.
Proof.
  unfold verdict.
  destruct x as [p|p|p|p|p|r|p|p|p|p|p|p|p|p|o|p|b|p|b]; simpl;
    try (split; intros _; [reflexivity | eexists; reflexivity]).
  - rewrite IsValid_Entity_run. destruct p as [|a]; simpl.
    + split; intros _; [reflexivity | eexists; reflexivity].
    + rewrite fmap_is_Some. apply is_Some_true.
  - rewrite IsValid_Component_run. destruct p as [|c]; simpl.
    + split; intros _; [reflexivity | eexists; reflexivity].
    + unfold store, Stored_Component, Stored_Entity.
      destruct (components h !! c) as [[[|a]]|]; simpl.
      * split; intros _; [reflexivity | eexists; reflexivity].
      * rewrite fmap_is_Some. apply is_Some_true.
      * split; [intros [b H]; discriminate H | discriminate].
  - rewrite IsValid_Job_run. destruct p as [|a]; simpl.
    + split; intros _; [reflexivity | eexists; reflexivity].
    + rewrite fmap_is_Some. apply is_Some_true.
  - rewrite IsValid_SerializeContext_run. destruct p as [|a]; simpl.
    + split; intros _; [reflexivity | eexists; reflexivity].
    + rewrite fmap_is_Some. apply is_Some_true.
Qed.

(** X3.  No overload makes more than three member calls through a pointer.
    The component
    overload makes exactly three when the owning entity is non-null (the
    owning-entity accessor twice, then the state accessor on the owner);
    every other overload makes at most one. *)
Theorem IsValid_call_count {T V E} (x : Handle T V E) (h : Heap) :
  length (probes (IsValid x) h) <= 3
  /\ (forall (c a : addr),
        x = HComponent (ref c) ->
        verdict (Component_GetEntity (ref c)) h = Some (ref a) ->
        probes (IsValid x) h
        = [{| accessor := AccGetEntity; receiver := Some c |};
           {| accessor := AccGetEntity; receiver := Some c |};
           {| accessor := AccGetState; receiver := Some a |}])
  /\ ((forall component, x <> HComponent component) ->
      length (probes (IsValid x) h) <= 1).
Proof.
  unfold probes.
  destruct x as [p|p|p|p|p|r|p|p|p|p|p|p|p|p|o|p|b|p|b]; simpl;
    try (split; [lia|split; [discriminate|lia]]).
  - rewrite IsValid_Entity_run. destruct p; simpl.
    all: split; [lia|split; [discriminate|lia]].
  - rewrite IsValid_Component_run. split; [|split].
    + destruct p as [|c]; simpl; [lia|].
      destruct (components h !! c) as [[[|a]]|]; simpl; lia.
    + intros c a [= ->]. rewrite verdict_Component_GetEntity.
      destruct (components h !! c) as [[o]|]; simpl; [|discriminate].
      intros [= ->]. reflexivity.
    + intros H. destruct (H p eq_refl).
  - rewrite IsValid_Job_run. destruct p; simpl.
    all: split; [lia|split; [discriminate|lia]].
  - rewrite IsValid_SerializeContext_run. destruct p; simpl.
    all: split; [lia|split; [discriminate|lia]].
Qed.

Lemma IsValid_call_count_witness :
  verdict (Component_GetEntity (ref 10%N)) sample_heap = Some (ref 1%N)
  /\ length (probes (IsValid (HComponent (ref 10%N) : Handle unit unit unit))
               sample_heap) = 3.
Proof.
  split; [reflexivity|].
  rewrite (proj1 (proj2 (IsValid_call_count
                           (HComponent (ref 10%N) : Handle unit unit unit)
                           sample_heap)) 10%N 1%N eq_refl eq_refl).
  reflexivity.
Defined.



(** X5.  The entity overload reads nothing but the entity it is given, and
    the component overload nothing but the component and its owning entity:
    two heaps that agree on these objects give the same calls and the same
    answer, whatever else they hold. *)
Theorem IsValid_footprint (h h' : Heap) :
  (forall a : addr,
     entities h !! a = entities h' !! a ->
     IsValid_Entity (ref a) h = IsValid_Entity (ref a) h')
  /\ (forall c : addr,
        components h !! c = components h' !! c ->
        (forall comp a,
           components h !! c = Some comp ->
           m_entity comp = ref a ->
           entities h !! a = entities h' !! a) ->
        IsValid_Component (ref c) h = IsValid_Component (ref c) h').
Proof.
  split.
  - intros a Ha. rewrite !IsValid_Entity_run, Ha. reflexivity.
  - intros c Hc Ho. rewrite !IsValid_Component_run. simpl. rewrite <- Hc.
    destruct (components h !! c) as [comp|]; [|reflexivity].
    destruct (m_entity comp) as [|a] eqn:Hm; [reflexivity|].
    rewrite (Ho comp a eq_refl Hm). reflexivity.
Qed.

Lemma IsValid_footprint_witness :
  components sample_heap !! 10%N = components busy_heap !! 10%N
  /\ IsValid_Component (ref 10%N) sample_heap
     = IsValid_Component (ref 10%N) busy_heap.
Proof.
  assert (Hc : components sample_heap !! 10%N = components busy_heap !! 10%N)
    by reflexivity.
  split; [exact Hc|].
  apply (proj2 (IsValid_footprint sample_heap busy_heap) 10%N Hc).
  intros comp a H1 H2.
  assert (Hcomp : comp = {| m_entity := ref 1%N |})
    by (vm_compute in H1; congruence).
  subst comp. simpl in H2. injection H2 as <-. reflexivity.
Defined.

(** X6.  Components that report the same owning entity get the same answer:
    a component is valid together with every other component of its
    entity. *)
Theorem IsValid_Component_same_owner (h : Heap)
    (c1 c2 : Ptr Component) (owner : Ptr Entity) :
  verdict (Component_GetEntity c1) h = Some owner ->
  verdict (Component_GetEntity c2) h = Some owner ->
  verdict (IsValid_Component c1) h = verdict (IsValid_Component c2) h.
Proof.
  rewrite !verdict_Component_GetEntity. unfold verdict.
  rewrite !IsValid_Component_run.
  destruct c1 as [|a1]; [discriminate|].
  destruct c2 as [|a2]; [discriminate|]. simpl.
  destruct (components h !! a1) as [[o1]|]; simpl; [|discriminate].
  destruct (components h !! a2) as [[o2]|]; simpl; [|discriminate].
  intros [= ->] [= ->]. destruct owner; reflexivity.
Qed.

Lemma IsValid_Component_same_owner_witness :
  verdict (Component_GetEntity (ref 10%N)) busy_heap = Some (ref 1%N)
  /\ verdict (Component_GetEntity (ref 13%N)) busy_heap = Some (ref 1%N)
  /\ verdict (IsValid_Component (ref 10%N)) busy_heap
     = verdict (IsValid_Component (ref 13%N)) busy_heap.
Proof.
  split; [reflexivity|]. split; [reflexivity|].
  exact (IsValid_Component_same_owner busy_heap (ref 10%N) (ref 13%N)
           (ref 1%N) eq_refl eq_refl).
Defined.
